(** * PDF summarizer with Ollama: the pipeline of [app1.py]

    A shallow embedding of [OllamaPDFSummarizer] and of [main]: the
    reachability probe, the model listing, the text extraction, the
    truncation and prompt construction, the inference call with its
    error handlers, and the statistics shown for a stored summary.

    The collaborators are kept as the code sees them.  The HTTP library
    answers a request with a response or raises one of its own
    exceptions; a response carries a status code and what [.json()]
    gives for its body; the PDF library opens a file or raises, and
    each page yields its text or raises.  Streamlit calls that show
    something are recorded in a log, in program order, next to the
    requests that were issued.  Pure layout calls ([set_page_config],
    [title], [header], [markdown], [columns], [expander], [container],
    [spinner]) show fixed text and are left out. *)

From Stdlib Require Import Floats.
From stdpp Require Import gmap list strings.

Set Warnings "-abstract-large-number,-inexact-float".

(** ** Strings and values *)

(** A Python [str] is a sequence of Unicode code points: [list N].
    An ASCII literal of the source, as a [str]: *)
Definition u (s : string) : list N :=
  Ascii.N_of_ascii <$> String.list_ascii_of_string s.
Arguments u : simpl never.

(** What [json.loads] builds, which is also every value the program
    passes around: [None], booleans, numbers, strings, lists, dicts. *)
#[warnings="-register-all"]
Inductive pyval :=
| PyNone
| PyBool (b : bool)
| PyInt (z : Z)
| PyFloat (x : float)
| PyStr (s : list N)
| PyList (l : list pyval)
| PyDict (d : gmap (list N) pyval).

(** [bool(v)], as [if v:] tests it. *)
Definition truthy (v : pyval) : bool :=
  match v with
  | PyNone => false
  | PyBool b => b
  | PyInt z => negb (z =? 0)%Z
  | PyFloat x => negb (x =? 0)%float
  | PyStr s => negb (Nat.eqb (length s) 0)
  | PyList l => negb (Nat.eqb (length l) 0)
  | PyDict d => negb (Nat.eqb (size d) 0)
  end.

Definition type_name (v : pyval) : list N :=
  match v with
  | PyNone => u "NoneType"
  | PyBool _ => u "bool"
  | PyInt _ => u "int"
  | PyFloat _ => u "float"
  | PyStr _ => u "str"
  | PyList _ => u "list"
  | PyDict _ => u "dict"
  end.

(** ** Exceptions *)

(** The classes of [requests.exceptions].  All derive from
    [RequestException]; [ConnectTimeout] and [ReadTimeout] derive from
    [Timeout]; [JSONDecodeError] is what [Response.json] raises on a
    body that is not JSON. *)
Inductive request_exc :=
| RequestException
| InvalidJSONError
| JSONDecodeError
| HTTPError
| ConnectionError
| ProxyError
| SSLError
| Timeout
| ConnectTimeout
| ReadTimeout
| TooManyRedirects
| MissingSchema
| InvalidSchema
| InvalidURL
| ChunkedEncodingError
| ContentDecodingError.

(** The exception classes the program can meet: those of the HTTP
    library, the interpreter's own, and any other subclass of
    [Exception] (a fault of the PDF library, say). *)
Inductive exc_class :=
| Requests (c : request_exc)
| AttributeError
| KeyError
| TypeError
| ValueError
| ZeroDivisionError
| OtherException (name : list N).

(** An exception object: its class and [str(e)]. *)
Record exn := Exn { exn_class : exc_class; exn_str : list N }.

(** [except requests.exceptions.Timeout] *)
Definition isinstance_Timeout (e : exn) : bool :=
  match exn_class e with
  | Requests (Timeout | ConnectTimeout | ReadTimeout) => true
  | _ => false
  end.

(** [except requests.exceptions.RequestException] *)
Definition isinstance_RequestException (e : exn) : bool :=
  match exn_class e with
  | Requests _ => true
  | _ => false
  end.

(** [except Exception] *)
Definition isinstance_Exception (e : exn) : bool := true.

Arguments isinstance_Timeout : simpl never.
Arguments isinstance_RequestException : simpl never.

(** ** The HTTP and PDF collaborators *)

(** A response: [status_code] and the result of [.json()]. *)
Record response := Response { status_code : Z; json : exn + pyval }.

(** The [json=] body of the inference request. *)
Record payload := Payload {
  p_model : pyval;
  p_prompt : list N;
  p_stream : bool;
  p_temperature : float;
  p_top_p : float
}.

Inductive http_method := GET | POST.

Record request := Request {
  req_method : http_method;
  req_url : list N;
  req_json : option payload;
  req_timeout : Z
}.

(** [requests.get] and [requests.post] return a response or raise an
    exception of the library. *)
Inductive reply :=
| Reply (r : response)
| Fault (c : request_exc) (msg : list N).

(** [page.extract_text()] returns the page's text or raises. *)
Record page := Page { extract_text : exn + list N }.

(** An uploaded file: its name, and what [PdfReader(pdf_file).pages]
    gives, the pages or an exception. *)
Record pdf_file := PdfFile { name : list N; pages : exn + list page }.

(** ** The log *)

(** An f-string, kept as its parts: literal text, [{v}] and [{x:.1f}]. *)
Inductive fpart :=
| Lit (s : list N)
| Str (v : pyval)
| Fix1 (x : float).

Inductive event :=
| Sent (r : request)
| PdfReader (f : pdf_file)
| st_success (msg : list fpart)
| st_info (msg : list fpart)
| st_warning (msg : list fpart)
| st_error (msg : list fpart)
| st_selectbox (label : list N) (options : list pyval)
| st_text_area (label : list N) (value : pyval)
| st_button (label : list N)
| st_metric (label : list N) (value : list fpart)
| st_download_button (label : list N) (data : pyval).

(** ** State and control *)

(** The state of one run of the script: how many requests were issued,
    what was shown and sent so far, and [st.session_state], which
    Streamlit carries from one run to the next. *)
Record world := World {
  sent : nat;
  log : list event;
  session_state : gmap (list N) pyval
}.

Inductive outcome (A : Type) :=
| Returns (a : A)
| Raises (e : exn).
Arguments Returns {A} a.
Arguments Raises {A} e.

Definition M (A : Type) : Type := world -> outcome A * world.

Definition ret {A} (a : A) : M A := fun w => (Returns a, w).

Definition raise {A} (e : exn) : M A := fun w => (Raises e, w).

Definition bind {A B} (m : M A) (k : A -> M B) : M B :=
  fun w =>
    match m w with
    | (Returns a, w') => k a w'
    | (Raises e, w') => (Raises e, w')
    end.

Declare Scope py_scope.
Delimit Scope py_scope with py.
Notation "x <- m ;; k" := (bind m (fun x => k))
  (at level 100, m at next level, right associativity) : py_scope.
Notation "m ;; k" := (bind m (fun _ => k))
  (at level 100, k at level 200, right associativity) : py_scope.
Open Scope py_scope.

(** The [except] clauses of a [try], tried in order. *)
Fixpoint dispatch {A} (clauses : list ((exn -> bool) * (exn -> M A)))
    (e : exn) : M A :=
  match clauses with
  | [] => raise e
  | (matches, handler) :: rest =>
      if matches e then handler e else dispatch rest e
  end.

Definition try_except {A} (body : M A)
    (clauses : list ((exn -> bool) * (exn -> M A))) : M A :=
  fun w =>
    match body w with
    | (Returns a, w') => (Returns a, w')
    | (Raises e, w') => dispatch clauses e w'
    end.

Definition emit (e : event) : M unit :=
  fun w =>
    (Returns tt,
     {| sent := sent w; log := log w ++ [e];
        session_state := session_state w |}).

(** [st.session_state[key] = v] *)
Definition session_set (key : list N) (v : pyval) : M unit :=
  fun w =>
    (Returns tt,
     {| sent := sent w; log := log w;
        session_state := <[key := v]> (session_state w) |}).

(** [key in st.session_state] *)
Definition session_has (key : list N) : M bool :=
  fun w => (Returns (bool_decide (is_Some (session_state w !! key))), w).

(** [st.session_state[key]] *)
Definition session_get (key : list N) : M pyval :=
  fun w =>
    match session_state w !! key with
    | Some v => (Returns v, w)
    | None => (Raises (Exn KeyError (u "'" ++ key ++ u "'")), w)
    end.

(** ** Operations of the interpreter *)

(** [o.get(key, dflt)]: defined on dicts only. *)
Definition py_get (o : pyval) (key : list N) (dflt : pyval) : M pyval :=
  match o with
  | PyDict d => ret (default dflt (d !! key))
  | _ =>
      raise (Exn AttributeError
               (u "'" ++ type_name o ++ u "' object has no attribute 'get'"))
  end.

(** [o[key]] for a string key. *)
Definition py_getitem (o : pyval) (key : list N) : M pyval :=
  match o with
  | PyDict d =>
      match d !! key with
      | Some v => ret v
      | None => raise (Exn KeyError (u "'" ++ key ++ u "'"))
      end
  | PyStr _ =>
      raise (Exn TypeError (u "string indices must be integers, not 'str'"))
  | PyList _ =>
      raise (Exn TypeError
               (u "list indices must be integers or slices, not str"))
  | _ =>
      raise (Exn TypeError
               (u "'" ++ type_name o ++ u "' object is not subscriptable"))
  end.

(** The items [for x in o] goes through: the elements of a list, the
    characters of a string, the keys of a dict. *)
Definition py_iter (o : pyval) : M (list pyval) :=
  match o with
  | PyList l => ret l
  | PyStr s => ret ((fun c => PyStr [c]) <$> s)
  | PyDict d => ret ((fun kv => PyStr (fst kv)) <$> map_to_list d)
  | _ =>
      raise (Exn TypeError
               (u "'" ++ type_name o ++ u "' object is not iterable"))
  end.

(** A list comprehension [[f x for x in l]]: left to right, stopping at
    the first exception. *)
Fixpoint comprehension {A B} (f : A -> M B) (l : list A) : M (list B) :=
  match l with
  | [] => ret []
  | x :: l' => y <- f x ;; ys <- comprehension f l' ;; ret (y :: ys)
  end.

(** The code points [str.split()] treats as whitespace. *)
Definition isspace (c : N) : bool :=
  ((9 <=? c) && (c <=? 13) || (28 <=? c) && (c <=? 32)
   || (c =? 133) || (c =? 160) || (c =? 5760)
   || (8192 <=? c) && (c <=? 8202)
   || (c =? 8232) || (c =? 8233) || (c =? 8239) || (c =? 8287)
   || (c =? 12288))%N.

(** [s.split()]: the maximal runs of characters that are not
    whitespace.  [word] is the run being read, last character first. *)
Fixpoint split_from (word : list N) (s : list N) : list (list N) :=
  match s with
  | [] => match word with [] => [] | _ => [reverse word] end
  | c :: s' =>
      if isspace c then
        match word with
        | [] => split_from [] s'
        | _ => reverse word :: split_from [] s'
        end
      else split_from (c :: word) s'
  end.

Definition split (s : list N) : list (list N) := split_from [] s.

(** [len(v.split())] *)
Definition split_len (v : pyval) : M nat :=
  match v with
  | PyStr s => ret (length (split s))
  | _ =>
      raise (Exn AttributeError
               (u "'" ++ type_name v ++ u "' object has no attribute 'split'"))
  end.

(** A count as a float: exact below [2^53], which the length of any
    text held in memory is. *)
Definition float_of_nat (n : nat) : float :=
  of_uint63 (Uint63.of_Z (Z.of_nat n)).

(** [a / b] on two counts: true division, which raises on a zero
    divisor. *)
Definition truediv (a b : nat) : M float :=
  if Nat.eqb b 0 then raise (Exn ZeroDivisionError (u "division by zero"))
  else ret (float_of_nat a / float_of_nat b)%float.

(** ** OllamaPDFSummarizer *)

Definition max_chars : nat := 8000.
Arguments max_chars : simpl never.

Definition nl : list N := [10%N].

(** The prompt f-string of [summarize_text], with its line breaks and
    the indentation of the source. *)
Definition prompt_of (text : list N) : list N :=
  u "Please provide a comprehensive summary of the following text. " ++ nl
  ++ u "            Focus on the main points, key arguments, and important conclusions:" ++ nl
  ++ nl
  ++ u "            " ++ text ++ nl
  ++ nl
  ++ u "            Summary:".
Arguments prompt_of : simpl never.

Section Backend.

(** The inference server and the network in front of it: the outcome of
    the [n]-th request of the run, given the request. *)
Variable backend : nat -> request -> reply.

Definition send (r : request) : M response :=
  fun w =>
    let w' := {| sent := S (sent w); log := log w ++ [Sent r];
                 session_state := session_state w |} in
    match backend (sent w) r with
    | Reply resp => (Returns resp, w')
    | Fault c msg => (Raises (Exn (Requests c) msg), w')
    end.

Definition requests_get (url : list N) (timeout : Z) : M response :=
  send (Request GET url None timeout).

Definition requests_post (url : list N) (body : payload) (timeout : Z)
    : M response :=
  send (Request POST url (Some body) timeout).

(** [response.json()] *)
Definition response_json (r : response) : M pyval :=
  match json r with
  | inl e => raise e
  | inr v => ret v
  end.

Definition check_ollama_connection (base_url : list N) : M bool :=
  try_except
    (response <- requests_get (base_url ++ u "/api/tags") 5 ;;
     ret (status_code response =? 200)%Z)
    [(isinstance_RequestException, fun _ => ret false)].

Definition get_available_models (base_url : list N) : M (list pyval) :=
  try_except
    (response <- requests_get (base_url ++ u "/api/tags") 5 ;;
     if (status_code response =? 200)%Z then
       models_data <- response_json response ;;
       models <- py_get models_data (u "models") (PyList []) ;;
       items <- py_iter models ;;
       comprehension (fun model => py_getitem model (u "name")) items
     else ret [])
    [(isinstance_RequestException, fun _ => ret [])].

(** [PdfReader(pdf_file)] and its [pages]. *)
Definition PdfReader_pages (f : pdf_file) : M (list page) :=
  emit (PdfReader f) ;;
  match pages f with
  | inl e => raise e
  | inr ps => ret ps
  end.

(** The loop [for page in pdf_reader.pages: text += page.extract_text()]. *)
Fixpoint extract_loop (text : list N) (ps : list page) : M (list N) :=
  match ps with
  | [] => ret text
  | p :: ps' =>
      match extract_text p with
      | inl e => raise e
      | inr t => extract_loop (text ++ t) ps'
      end
  end.

Definition extract_text_from_pdf (f : pdf_file) : M (option (list N)) :=
  try_except
    (ps <- PdfReader_pages f ;;
     text <- extract_loop [] ps ;;
     ret (Some text))
    [(isinstance_Exception,
      fun e =>
        emit (st_error [Lit (u "Error extracting text from PDF: ");
                        Lit (exn_str e)]) ;;
        ret None)].

Definition summarize_text (base_url : list N) (text : list N)
    (model : pyval) : M pyval :=
  try_except
    (text <- (if max_chars <? length text then
                emit (st_warning [Lit (u "Text truncated to ");
                                  Str (PyInt (Z.of_nat max_chars));
                                  Lit (u " characters for processing.")]) ;;
                ret (take max_chars text ++ u "...")
              else ret text) ;;
     let prompt := prompt_of text in
     let body := {| p_model := model; p_prompt := prompt;
                    p_stream := false;
                    p_temperature := 0.3; p_top_p := 0.9 |} in
     response <- requests_post (base_url ++ u "/api/generate") body 120 ;;
     if (status_code response =? 200)%Z then
       result <- response_json response ;;
       py_get result (u "response") (PyStr (u "No summary generated."))
     else
       emit (st_error [Lit (u "Error from Ollama: ");
                       Str (PyInt (status_code response))]) ;;
       ret PyNone)
    [(isinstance_Timeout,
      fun _ =>
        emit (st_error [Lit (u "Request timed out. Please try again with a shorter document.")]) ;;
        ret PyNone);
     (isinstance_RequestException,
      fun e =>
        emit (st_error [Lit (u "Error communicating with Ollama: ");
                        Lit (exn_str e)]) ;;
        ret PyNone)].

(** ** The script *)

(** What the user did on the page in one run of the script. *)
Record ui := UI {
  ollama_host : list N;             (* st.text_input("Ollama Host:") *)
  model_choice : nat;               (* the option picked in st.selectbox *)
  uploaded_file : option pdf_file;  (* st.file_uploader *)
  generate_clicked : bool           (* st.button("Generate Summary") *)
}.

(** [st.selectbox(label, options)]: the picked option, the first one
    when nothing was picked. *)
Definition selectbox (label : list N) (options : list pyval) (choice : nat)
    : M pyval :=
  emit (st_selectbox label options) ;;
  ret (default (default PyNone (head options)) (options !! choice)).

(** [st.button(label)]: shows the button, true when it was clicked. *)
Definition button (label : list N) (clicked : bool) : M bool :=
  emit (st_button label) ;;
  ret clicked.

(** The block [with col1:]. *)
Definition upload_column (summarizer : list N) (selected_model : pyval)
    (inp : ui) : M unit :=
  match uploaded_file inp with
  | None => ret tt
  | Some f =>
      emit (st_success [Lit (u "File uploaded: "); Lit (name f)]) ;;
      text <- extract_text_from_pdf f ;;
      match text with
      | None | Some [] => ret tt
      | Some t =>
          emit (st_info [Lit (u "Extracted ");
                         Str (PyInt (Z.of_nat (length t)));
                         Lit (u " characters from PDF")]) ;;
          emit (st_text_area (u "Text content:")
                  (PyStr (if 1000 <? length t
                          then take 1000 t ++ u "..." else t))) ;;
          clicked <- button (128640%N :: u " Generate Summary")
                       (generate_clicked inp) ;;
          if clicked then
            summary <- summarize_text summarizer t selected_model ;;
            if truthy summary then
              session_set (u "summary") summary ;;
              session_set (u "original_text") (PyStr t)
            else ret tt
          else ret tt
      end
  end.

(** The block [with col2:]. *)
Definition summary_column : M unit :=
  stored <- session_has (u "summary") ;;
  if stored then
    emit (st_success [Lit (u "Summary generated successfully!")]) ;;
    shown <- session_get (u "summary") ;;
    emit (st_text_area (u "AI Summary:") shown) ;;
    original_text <- session_get (u "original_text") ;;
    original_words <- split_len original_text ;;
    emit (st_metric (u "Original Words")
            [Str (PyInt (Z.of_nat original_words))]) ;;
    summary <- session_get (u "summary") ;;
    summary_words <- split_len summary ;;
    emit (st_metric (u "Summary Words")
            [Str (PyInt (Z.of_nat summary_words))]) ;;
    (if 0 <? original_words then
       quotient <- truediv summary_words original_words ;;
       let compression_ratio := ((1 - quotient) * 100)%float in
       emit (st_metric (u "Compression") [Fix1 compression_ratio; Lit (u "%")])
     else ret tt) ;;
    data <- session_get (u "summary") ;;
    emit (st_download_button (128190%N :: u " Download Summary") data)
  else
    emit (st_info [Lit (u "Upload a PDF and click 'Generate Summary' to see results here.")]).

Definition main (inp : ui) : M unit :=
  let summarizer := u "http://localhost:11434" in
  let summarizer :=
    if bool_decide (ollama_host inp <> summarizer)
    then ollama_host inp else summarizer in
  connected <- check_ollama_connection summarizer ;;
  if connected then
    emit (st_success [Lit (9989%N :: u " Ollama is connected!")]) ;;
    models <- get_available_models summarizer ;;
    if truthy (PyList models) then
      selected_model <- selectbox (u "Select Model:") models
                          (model_choice inp) ;;
      emit (st_info [Lit (u "Using model: "); Str selected_model]) ;;
      upload_column summarizer selected_model inp ;;
      summary_column
    else
      emit (st_error [Lit (u "No models available!")])
  else
    emit (st_error [Lit (10060%N :: u " Cannot connect to Ollama!")]).

End Backend.

(** A run of the script starts with nothing sent or shown and with the
    session state the previous run left. *)
Definition start (ss : gmap (list N) pyval) : world :=
  {| sent := 0; log := []; session_state := ss |}.

(** ** Reading the log *)

(** What a run sent, showed and opened, in order. *)
Definition requests_of (l : list event) : list request :=
  omap (fun e => match e with Sent r => Some r | _ => None end) l.

Definition errors_of (l : list event) : list (list fpart) :=
  omap (fun e => match e with st_error m => Some m | _ => None end) l.

Definition warnings_of (l : list event) : list (list fpart) :=
  omap (fun e => match e with st_warning m => Some m | _ => None end) l.

Definition metrics_of (l : list event) : list (list N * list fpart) :=
  omap (fun e => match e with st_metric k v => Some (k, v) | _ => None end) l.

Definition buttons_of (l : list event) : list (list N) :=
  omap (fun e => match e with st_button k => Some k | _ => None end) l.

Definition opened_of (l : list event) : list pdf_file :=
  omap (fun e => match e with PdfReader f => Some f | _ => None end) l.

(** The GET of the probe and of the listing. *)
Definition tags_request (base_url : list N) : request :=
  Request GET (base_url ++ u "/api/tags") None 5.

(** The POST of [summarize_text], whatever its body. *)
Definition generate_post (base_url : list N) (body : payload) : request :=
  Request POST (base_url ++ u "/api/generate") (Some body) 120.

(** The POST of [summarize_text] for the text that goes into the
    prompt. *)
Definition generate_request (base_url : list N) (model : pyval)
    (text : list N) : request :=
  Request POST (base_url ++ u "/api/generate")
    (Some (Payload model (prompt_of text) false 0.3 0.9)) 120.




Definition unavailable_message : list fpart :=
  [Lit (10060%N :: u " Cannot connect to Ollama!")].

Definition no_models_message : list fpart :=
  [Lit (u "No models available!")].

Definition extraction_error_message (e : exn) : list fpart :=
  [Lit (u "Error extracting text from PDF: "); Lit (exn_str e)].

Definition truncation_warning : list fpart :=
  [Lit (u "Text truncated to "); Str (PyInt 8000);
   Lit (u " characters for processing.")].

Definition connected_message : list fpart :=
  [Lit (9989%N :: u " Ollama is connected!")].

Definition uploaded_message (f : pdf_file) : list fpart :=
  [Lit (u "File uploaded: "); Lit (name f)].


(** A page without text. *)
Definition blank (p : page) : Prop := extract_text p = inr [].

(** The compression shown for two word counts. *)
Definition compression_ratio (summary_words original_words : nat) : float :=
  ((1 - float_of_nat summary_words / float_of_nat original_words) * 100)%float.

(** The states a run of [main] goes through before the two columns:
    after the probe succeeded, after the listing, after a model was
    chosen. *)
Definition probed (base : list N) (ss : gmap (list N) pyval) : world :=
  {| sent := 1;
     log := [Sent (tags_request base); st_success connected_message];
     session_state := ss |}.

Definition listed (base : list N) (ss : gmap (list N) pyval) : world :=
  {| sent := 2;
     log := [Sent (tags_request base); st_success connected_message;
             Sent (tags_request base)];
     session_state := ss |}.

Definition chosen (base : list N) (ss : gmap (list N) pyval)
    (models : list pyval) (selected_model : pyval) : world :=
  {| sent := 2;
     log := [Sent (tags_request base); st_success connected_message;
             Sent (tags_request base);
             st_selectbox (u "Select Model:") models;
             st_info [Lit (u "Using model: "); Str selected_model]];
     session_state := ss |}.

(** The session state the script keeps: a stored summary is truthy and
    comes with the text it summarizes. *)
Definition stored (ss : gmap (list N) pyval) : Prop :=
  forall v,
    ss !! u "summary" = Some v ->
    truthy v = true /\ exists t, ss !! u "original_text" = Some (PyStr t).

(** The session state after a sequence of runs, each with its server
    and what the user did; Streamlit hands the state of one run to the
    next, also when the run ended with an exception. *)
Fixpoint session_after (runs : list ((nat -> request -> reply) * ui))
    (ss : gmap (list N) pyval) : gmap (list N) pyval :=
  match runs with
  | [] => ss
  | (backend, inp) :: rest =>
      session_after rest (session_state (snd (main backend inp (start ss))))
  end.

(** The text each page yields. *)
Definition yields (p : page) (t : list N) : Prop := extract_text p = inr t.

(** The first fault met when extracting a file: opening it, or the
    first page that raises after pages that yielded text. *)
Definition first_fault (f : pdf_file) (e : exn) : Prop :=
  pages f = inl e
  \/ exists before texts p after,
       pages f = inr (before ++ p :: after)
       /\ Forall2 yields before texts
       /\ extract_text p = inl e.

(** ** Sample servers, documents and runs *)

Definition localhost : list N := u "http://localhost:11434".

(** Servers: one that cannot be reached, one that times out, one that
    gives the same answer to every request, one that lists a model and
    summarizes. *)
Definition refusing : nat -> request -> reply :=
  fun _ _ => Fault ConnectionError (u "Connection refused").


Definition replying (r : response) : nat -> request -> reply :=
  fun _ _ => Reply r.

(** Answers to the inference request. *)
Definition greeting : response :=
  Response 200 (inr (PyDict {[ u "response" := PyStr (u "A greeting.") ]})).






(** Answers to the listing request. *)
Definition one_model : response :=
  Response 200
    (inr (PyDict {[ u "models" :=
                      PyList [PyDict {[ u "name" := PyStr (u "m1") ]}] ]})).

Definition no_models_field : response := Response 200 (inr (PyDict ∅)).

Definition nameless_entry : response :=
  Response 200 (inr (PyDict {[ u "models" := PyList [PyDict ∅] ]})).

Definition serving : nat -> request -> reply :=
  fun _ r =>
    match req_method r with
    | GET => Reply one_model
    | POST => Reply greeting
    end.

(** Texts and documents. *)
Definition long_text : list N := replicate 8001 97%N.

Definition sent_text : list N := replicate 8000 97%N ++ u "...".

Definition hello_pdf : pdf_file :=
  PdfFile (u "hello.pdf")
    (inr [Page (inr (u "hello ")); Page (inr (u "world"))]).

Definition blank_pdf : pdf_file :=
  PdfFile (u "blank.pdf") (inr [Page (inr []); Page (inr [])]).

(** Runs of the script. *)
Definition unreachable_run : ui := UI localhost 0 None false.

Definition summarizing_run : ui := UI localhost 0 (Some hello_pdf) true.

Definition blank_run : ui := UI localhost 0 (Some blank_pdf) true.

Definition greeting_session : world :=
  start (<[u "summary" := PyStr (u "A greeting.")]>
           (<[u "original_text" := PyStr (u "hello world")]> ∅)).

Definition torn_pdf : pdf_file :=
  PdfFile (u "torn.pdf")
    (inr [Page (inr (u "hello "));
          Page (inl (Exn (OtherException (u "PdfReadError"))
                       (u "EOF marker not found")));
          Page (inr (u "world"))]).

Definition blank_session : world :=
  start (<[u "summary" := PyStr (u "A greeting.")]>
           (<[u "original_text" := PyStr (u "   ")]> ∅)).

Definition number_session : world :=
  start (<[u "summary" := PyInt 42]>
           (<[u "original_text" := PyStr (u "hello world")]> ∅)).

Definition idle_run : ui := UI localhost 0 None false.

(** ** Properties *)

Lemma requests_of_app l k : requests_of (l ++ k) = requests_of l ++ requests_of k.
Proof. apply omap_app. Qed.

Lemma errors_of_app l k : errors_of (l ++ k) = errors_of l ++ errors_of k.
Proof. apply omap_app. Qed.

Lemma warnings_of_app l k : warnings_of (l ++ k) = warnings_of l ++ warnings_of k.
Proof. apply omap_app. Qed.

Lemma metrics_of_app l k : metrics_of (l ++ k) = metrics_of l ++ metrics_of k.
Proof. apply omap_app. Qed.

Lemma buttons_of_app l k : buttons_of (l ++ k) = buttons_of l ++ buttons_of k.
Proof. apply omap_app. Qed.


(** Whatever [requests.get] or [requests.post] raises is caught by
    [except requests.exceptions.RequestException]. *)
Lemma fault_is_RequestException c msg :
  isinstance_RequestException (Exn (Requests c) msg) = true.
Proof. reflexivity. Qed.

(** *** The probe *)


(** *** The inference call *)

Ltac run_summarize :=
  unfold summarize_text, try_except, bind, requests_post, send,
    response_json, py_get, emit, ret, raise, generate_post in *.



Ltac by_cases_on_reply backend :=
  destruct (backend _ _) as [r|c msg]; cbn;
  [ destruct (status_code r =? 200)%Z;
    [ destruct (json r) as [e|v]; cbn;
      [ destruct (isinstance_Timeout e);
        [|destruct (isinstance_RequestException e)]
      | destruct v ]
    | ]
  | destruct (isinstance_Timeout _); [|rewrite fault_is_RequestException] ];
  cbn.

(** What [summarize_text] adds to the log, whatever the server does:
    the warning when the text is over the limit, then the request built
    from the text it kept, then at most an error message. *)
Lemma summarize_text_log backend base_url text model w :
  exists tail,
    log (snd (summarize_text backend base_url text model w))
    = log w
      ++ (if max_chars <? length text
          then [st_warning truncation_warning] else [])
      ++ Sent (generate_request base_url model
                 (if max_chars <? length text
                  then take max_chars text ++ u "..." else text))
         :: tail
    /\ warnings_of tail = [] /\ requests_of tail = [].
Proof.
  run_summarize.
  destruct (max_chars <? length text);
    cbn [fst snd log sent session_state];
    by_cases_on_reply backend;
    rewrite <- ?app_assoc; cbn [app];
    eexists; (split; [reflexivity|split; reflexivity]).
Qed.



(** The text of a prompt can be read back from the prompt. *)
Lemma prompt_of_inj t1 t2 : prompt_of t1 = prompt_of t2 -> t1 = t2.
Proof.
  unfold prompt_of. intros H.
  repeat match type of H with
         | ?a ++ _ = ?a ++ _ => apply app_inv_head in H
         end.
  rewrite !app_assoc in H. apply app_inv_tail in H.
  rewrite <- !app_assoc in H.
  repeat match type of H with
         | ?a ++ _ = ?a ++ _ => apply app_inv_head in H
         end.
  repeat apply app_inv_tail in H. exact H.
Qed.

(** C3, as the code has it.  The text portion of the prompt is the
    first 8000 characters of the input (the whole input when it is
    shorter), followed by the marker ["..."] exactly when the input was
    longer: at most 8003 characters in all. *)
Theorem prompt_text_bound backend base_url text model w :
  exists kept marker,
    requests_of (log (snd (summarize_text backend base_url text model w)))
    = requests_of (log w)
      ++ [generate_request base_url model (kept ++ marker)]
    /\ kept = take 8000 text
    /\ kept `prefix_of` text
    /\ length kept <= 8000
    /\ (marker = [] /\ length text <= 8000
        \/ marker = u "..." /\ 8000 < length text)
    /\ length (kept ++ marker) <= 8000 + 3.
Proof.
  destruct (summarize_text_log backend base_url text model w)
    as (tail & Hlog & _ & Hr).
  rewrite Hlog, !requests_of_app. cbn [requests_of omap list_omap].
  fold (requests_of tail). rewrite Hr.
  destruct (Nat.ltb_spec max_chars (length text)) as [Hlt|Hle];
    unfold max_chars in *.
  - exists (take 8000 text), (u "..."). cbn [app].
    split; [reflexivity|]. split; [reflexivity|].
    split; [apply prefix_take|].
    rewrite length_app, length_take.
    change (length (u "...")) with 3.
    split; [lia|]. split; [right; split; [reflexivity|lia]|lia].
  - exists text, []. rewrite app_nil_r. cbn [app].
    split; [reflexivity|]. split; [symmetry; apply take_ge; exact Hle|].
    split; [reflexivity|].
    split; [lia|]. split; [left; split; [reflexivity|lia]|lia].
Qed.

(** C3 fails as stated: for a text of 8001 characters the text portion
    of the prompt has 8003 characters. *)
Lemma prompt_text_over_budget :
  requests_of
    (log (snd (summarize_text refusing localhost long_text
                 (PyStr (u "m1")) (start ∅))))
  = [generate_request localhost (PyStr (u "m1")) sent_text]
  /\ length sent_text = 8003
  /\ 8000 < length sent_text.
Proof.
  split; [vm_compute; reflexivity|].
  split; [vm_compute; reflexivity|].
  apply Nat.ltb_lt. vm_compute. reflexivity.
Qed.







(** *** The model listing *)






(** *** The script *)

(** Case analysis on the innermost test of the goal. *)
Ltac case_step :=
  match goal with
  | |- context [match ?x with _ => _ end] =>
      lazymatch x with
      | context [match _ with _ => _ end] => fail
      | _ => destruct x eqn:?
      end
  end.

(** The right column shows the stored summary and its statistics: it
    offers no button, opens no file, sends no request, and leaves the
    session state as it was. *)
Lemma summary_column_log w :
  exists shown,
    log (snd (summary_column w)) = log w ++ shown
    /\ buttons_of shown = [] /\ requests_of shown = []
    /\ opened_of shown = []
    /\ sent (snd (summary_column w)) = sent w
    /\ session_state (snd (summary_column w)) = session_state w.
Proof.
  unfold summary_column, session_has, session_get, split_len, truediv,
    emit, bind, ret, raise.
  repeat (case_step; cbn [fst snd log sent session_state]).
  all: rewrite <- ?app_assoc; cbn [app].
  all: eexists; split; [try reflexivity; symmetry; apply app_nil_r|].
  all: repeat split.
Qed.

Lemma check_ollama_connection_run backend base_url w :
  check_ollama_connection backend base_url w
  = (Returns match backend (sent w) (tags_request base_url) with
             | Reply r => (status_code r =? 200)%Z
             | Fault _ _ => false
             end,
     {| sent := S (sent w);
        log := log w ++ [Sent (tags_request base_url)];
        session_state := session_state w |}).
Proof.
  unfold check_ollama_connection, try_except, bind, requests_get, send.
  fold (tags_request base_url).
  destruct (backend (sent w) (tags_request base_url)); reflexivity.
Qed.

Lemma comprehension_world items w :
  snd (comprehension (fun model => py_getitem model (u "name")) items w) = w.
Proof.
  induction items as [|item items IH]; [reflexivity|].
  cbn [comprehension]. unfold bind at 1.
  destruct item as [| | | | |l|d]; try reflexivity.
  cbn [py_getitem]. destruct (d !! u "name"); [|reflexivity].
  unfold ret at 1. unfold bind at 1.
  destruct (comprehension _ items w) as [[names|e] w'] eqn:Hc;
    cbn [snd] in IH; subst w'; reflexivity.
Qed.

(** Listing the models sends one request and shows nothing. *)
Lemma get_available_models_world backend base_url w :
  snd (get_available_models backend base_url w)
  = {| sent := S (sent w);
       log := log w ++ [Sent (tags_request base_url)];
       session_state := session_state w |}.
Proof.
  unfold get_available_models, try_except, bind at 1, requests_get, send.
  fold (tags_request base_url).
  destruct (backend (sent w) (tags_request base_url)) as [r|c msg];
    [|cbn [dispatch]; rewrite fault_is_RequestException; reflexivity].
  destruct (status_code r =? 200)%Z; [|reflexivity].
  unfold response_json, bind at 1.
  destruct (json r) as [e|v];
    [cbn [raise dispatch fst snd];
     destruct (isinstance_RequestException e); reflexivity|].
  set (w1 := {| sent := S (sent w);
                log := log w ++ [Sent (tags_request base_url)];
                session_state := session_state w |}).
  cbn [ret]. unfold bind.
  destruct (py_get v (u "models") (PyList []) w1) as [[models|e] w2] eqn:Hg.
  - assert (w2 = w1) as ->
        by (destruct v; unfold py_get, ret, raise in Hg; congruence).
    destruct (py_iter models w1) as [[items|e] w3] eqn:Hi.
    + assert (w3 = w1) as -> by (destruct models; unfold py_iter, ret, raise in Hi; congruence).
      pose proof (comprehension_world items w1) as Hc.
      destruct (comprehension _ items w1) as [[names|e] w4];
        cbn [snd] in Hc; subst w4; [reflexivity|].
      cbn [dispatch]. destruct (isinstance_RequestException e); reflexivity.
    + assert (w3 = w1) as -> by (destruct models; unfold py_iter, ret, raise in Hi; congruence).
      cbn [dispatch]. destruct (isinstance_RequestException e); reflexivity.
  - assert (w2 = w1) as -> by (destruct v; unfold py_get, ret, raise in Hg; congruence).
    cbn [dispatch]. destruct (isinstance_RequestException e); reflexivity.
Qed.

(** The summarizer of [main] talks to the host the user typed. *)
Lemma summarizer_of_host (h d : list N) :
  (if bool_decide (h <> d) then h else d) = h.
Proof.
  case_bool_decide as H; [reflexivity|].
  destruct (decide (h = d)) as [->|Hne]; [reflexivity|contradiction].
Qed.

(** The four ways a run of [main] can go: the probe fails; the listing
    raises; the listing is empty; a model is chosen and the two columns
    run. *)
Lemma main_cases backend inp ss :
  (fst (check_ollama_connection backend (ollama_host inp) (start ss))
   = Returns false
   /\ main backend inp (start ss)
      = (Returns tt,
         {| sent := 1;
            log := [Sent (tags_request (ollama_host inp));
                    st_error unavailable_message];
            session_state := ss |}))
  \/ (fst (check_ollama_connection backend (ollama_host inp) (start ss))
      = Returns true
      /\ ((exists e,
             get_available_models backend (ollama_host inp)
               (probed (ollama_host inp) ss)
             = (Raises e, listed (ollama_host inp) ss)
             /\ main backend inp (start ss)
                = (Raises e, listed (ollama_host inp) ss))
          \/ (get_available_models backend (ollama_host inp)
                (probed (ollama_host inp) ss)
              = (Returns [], listed (ollama_host inp) ss)
              /\ main backend inp (start ss)
                 = (Returns tt,
                    {| sent := 2;
                       log := log (listed (ollama_host inp) ss)
                              ++ [st_error no_models_message];
                       session_state := ss |}))
          \/ (exists models selected_model,
                models <> []
                /\ get_available_models backend (ollama_host inp)
                     (probed (ollama_host inp) ss)
                   = (Returns models, listed (ollama_host inp) ss)
                /\ main backend inp (start ss)
                   = (upload_column backend (ollama_host inp)
                        selected_model inp ;;
                      summary_column)
                       (chosen (ollama_host inp) ss models selected_model)))).
Proof.
  remember (main backend inp (start ss)) as run eqn:Hrun.
  unfold main in Hrun. rewrite summarizer_of_host in Hrun.
  set (base := ollama_host inp) in *.
  unfold bind at 1 in Hrun.
  rewrite !check_ollama_connection_run in *.
  cbn [start sent log session_state fst app] in *.
  destruct (backend 0 (tags_request base)) as [r|c msg];
    [destruct (status_code r =? 200)%Z|]; [|left; split; [reflexivity|exact Hrun]..].
  right. split; [reflexivity|].
  unfold bind at 1, emit at 1 in Hrun. unfold bind at 1 in Hrun.
  cbn [sent log session_state app] in Hrun.
  change {| sent := 1;
            log := [Sent (tags_request base);
                    st_success [Lit (9989%N :: u " Ollama is connected!")]];
            session_state := ss |}
    with (probed base ss) in Hrun.
  pose proof (get_available_models_world backend base (probed base ss)) as Hw.
  destruct (get_available_models backend base (probed base ss))
    as [[models|e] w3]; cbn [snd] in Hw; subst w3;
    change {| sent := S (sent (probed base ss));
              log := log (probed base ss) ++ [Sent (tags_request base)];
              session_state := session_state (probed base ss) |}
      with (listed base ss) in *.
  - destruct models as [|m models].
    + right; left. split; [reflexivity|exact Hrun].
    + right; right. eexists (m :: models), _.
      split; [discriminate|]. split; [reflexivity|]. exact Hrun.
  - left. exists e. split; [reflexivity|exact Hrun].
Qed.

(** C7. When the probe returns false, the run shows that the server
    cannot be reached and stops there: no file is opened.  A run in
    which a file is opened or an inference request is sent is one in
    which the probe returned true and the listing returned at least one
    model. *)
Theorem main_probe_gate backend inp ss :
  (fst (check_ollama_connection backend (ollama_host inp) (start ss))
   = Returns false ->
   main backend inp (start ss)
   = (Returns tt,
      {| sent := 1;
         log := [Sent (tags_request (ollama_host inp));
                 st_error unavailable_message];
         session_state := ss |})
   /\ opened_of (log (snd (main backend inp (start ss)))) = [])
  /\ (opened_of (log (snd (main backend inp (start ss)))) <> []
      \/ (exists r, r ∈ requests_of (log (snd (main backend inp (start ss))))
                    /\ req_method r = POST) ->
      fst (check_ollama_connection backend (ollama_host inp) (start ss))
      = Returns true
      /\ exists models,
           models <> []
           /\ fst (get_available_models backend (ollama_host inp)
                     (probed (ollama_host inp) ss))
              = Returns models).
Proof.
  destruct (main_cases backend inp ss)
    as [[Hc Hm]|[Hc [(e & Hl & Hm)|[[Hl Hm]|(ms & m & Hne & Hl & Hm)]]]].
  - split; [intros _; rewrite Hm; split; reflexivity|].
    rewrite Hm. cbn. intros [H|(r & Hr & Hp)]; [contradiction|].
    apply list_elem_of_singleton in Hr. subst r. discriminate.
  - split; [rewrite Hc; discriminate|].
    rewrite Hm. cbn. intros [H|(r & Hr & Hp)]; [contradiction|].
    repeat (apply elem_of_cons in Hr as [->|Hr]; [discriminate|]).
    apply elem_of_nil in Hr. contradiction.
  - split; [rewrite Hc; discriminate|].
    rewrite Hm. cbn. intros [H|(r & Hr & Hp)]; [contradiction|].
    repeat (apply elem_of_cons in Hr as [->|Hr]; [discriminate|]).
    apply elem_of_nil in Hr. contradiction.
  - split; [rewrite Hc; discriminate|].
    intros _. split; [exact Hc|]. exists ms. rewrite Hl. auto.
Qed.

(** A server that cannot be reached, and a run that summarizes. *)
Lemma main_probe_gate_witness :
  (main refusing unreachable_run (start ∅)
   = (Returns tt,
      {| sent := 1;
         log := [Sent (tags_request (ollama_host unreachable_run));
                 st_error unavailable_message];
         session_state := ∅ |})
   /\ opened_of (log (snd (main refusing unreachable_run (start ∅)))) = [])
  /\ (fst (check_ollama_connection serving (ollama_host summarizing_run)
             (start ∅))
      = Returns true
      /\ exists models,
           models <> []
           /\ fst (get_available_models serving (ollama_host summarizing_run)
                     (probed (ollama_host summarizing_run) ∅))
              = Returns models).
Proof.
  split.
  - apply (proj1 (main_probe_gate refusing unreachable_run ∅)).
    reflexivity.
  - apply (proj2 (main_probe_gate serving summarizing_run ∅)).
    left. vm_compute. discriminate.
Defined.

(** *** Extraction *)

Lemma extract_loop_blank ps :
  Forall blank ps ->
  forall text w, extract_loop text ps w = (Returns text, w).
Proof.
  induction 1 as [|p ps Hp _ IH]; intros text w; cbn [extract_loop];
    [reflexivity|].
  unfold blank in Hp. rewrite Hp, app_nil_r. apply IH.
Qed.

(** When extraction returns [None] or the empty string, the left column
    ends with it. *)
Lemma upload_column_stops backend summarizer selected_model inp g w t w' :
  uploaded_file inp = Some g ->
  extract_text_from_pdf g
    {| sent := sent w; log := log w ++ [st_success (uploaded_message g)];
       session_state := session_state w |}
  = (Returns t, w') ->
  t = None \/ t = Some [] ->
  upload_column backend summarizer selected_model inp w = (Returns tt, w').
Proof.
  intros Hf He Ht. unfold upload_column. rewrite Hf.
  unfold bind at 1, emit at 1. unfold bind at 1.
  unfold uploaded_message in He. rewrite He.
  destruct Ht as [->| ->]; reflexivity.
Qed.

(** C10. A file that opens and has no page, or only pages without text,
    is extracted to the empty string, a value and not a failure: no
    error is shown.  The left column then ends as it does after a failed
    extraction: no text is shown and no button is offered, so the run
    sends no inference request and leaves the session state as it
    was. *)
Theorem empty_document_not_summarized backend f ps :
  pages f = inr ps ->
  Forall blank ps ->
  (forall w,
     extract_text_from_pdf f w
     = (Returns (Some []),
        {| sent := sent w; log := log w ++ [PdfReader f];
           session_state := session_state w |}))
  /\ (forall summarizer selected_model inp w,
        uploaded_file inp = Some f ->
        upload_column backend summarizer selected_model inp w
        = (Returns tt,
           {| sent := sent w;
              log := log w ++ [st_success (uploaded_message f); PdfReader f];
              session_state := session_state w |}))
  /\ (forall g e summarizer selected_model inp w,
        uploaded_file inp = Some g ->
        pages g = inl e ->
        upload_column backend summarizer selected_model inp w
        = (Returns tt,
           {| sent := sent w;
              log := log w ++ [st_success (uploaded_message g); PdfReader g;
                               st_error (extraction_error_message e)];
              session_state := session_state w |}))
  /\ (forall inp ss,
        uploaded_file inp = Some f ->
        buttons_of (log (snd (main backend inp (start ss)))) = []
        /\ Forall (fun r => req_method r = GET)
             (requests_of (log (snd (main backend inp (start ss)))))
        /\ session_state (snd (main backend inp (start ss))) = ss).
Proof.
  intros Hp Hb.
  assert (Hx : forall w,
             extract_text_from_pdf f w
             = (Returns (Some []),
                {| sent := sent w; log := log w ++ [PdfReader f];
                   session_state := session_state w |})).
  { intros w. unfold extract_text_from_pdf, try_except, PdfReader_pages.
    unfold bind at 1 2, emit at 1. rewrite Hp. unfold ret at 1.
    unfold bind. rewrite (extract_loop_blank _ Hb). reflexivity. }
  assert (Hu : forall summarizer selected_model inp w,
             uploaded_file inp = Some f ->
             upload_column backend summarizer selected_model inp w
             = (Returns tt,
                {| sent := sent w;
                   log := log w ++ [st_success (uploaded_message f);
                                    PdfReader f];
                   session_state := session_state w |})).
  { intros summarizer selected_model inp w Hf.
    rewrite (upload_column_stops backend summarizer selected_model inp f w
               (Some []) _ Hf (Hx _)); [|right; reflexivity].
    cbn [sent log session_state]. rewrite <- app_assoc. reflexivity. }
  split; [exact Hx|]. split; [exact Hu|]. split.
  - intros g e summarizer selected_model inp w Hf Hg.
    rewrite (upload_column_stops backend summarizer selected_model inp g w
               None
               {| sent := sent w;
                  log := log w ++ [st_success (uploaded_message g);
                                   PdfReader g;
                                   st_error (extraction_error_message e)];
                  session_state := session_state w |} Hf);
      [reflexivity| |left; reflexivity].
    unfold extract_text_from_pdf, try_except, PdfReader_pages.
    unfold bind at 1 2, emit at 1. rewrite Hg. cbn.
    rewrite <- !app_assoc. reflexivity.
  - intros inp ss Hf.
    destruct (main_cases backend inp ss)
      as [[_ Hm]|[_ [(e & _ & Hm)|[[_ Hm]|(ms & m & _ & _ & Hm)]]]];
      rewrite Hm.
    1-3: split; [reflexivity|]; split; [|reflexivity];
         cbn; repeat constructor.
    unfold bind. rewrite (Hu _ _ _ _ Hf). cbn beta iota.
    set (w1 := {| sent := sent (chosen (ollama_host inp) ss ms m);
                  log := log (chosen (ollama_host inp) ss ms m)
                         ++ [st_success (uploaded_message f); PdfReader f];
                  session_state :=
                    session_state (chosen (ollama_host inp) ss ms m) |}).
    destruct (summary_column_log w1) as (shown & Hl & Hbt & Hr & _ & _ & Hs).
    rewrite Hl, Hs, buttons_of_app, requests_of_app, Hbt, Hr.
    split; [reflexivity|]. split; [|reflexivity].
    cbn. repeat constructor.
Qed.

(** A document of two pages without text. *)
Lemma empty_document_not_summarized_witness :
  extract_text_from_pdf blank_pdf (start ∅)
  = (Returns (Some []),
     {| sent := sent (start ∅); log := log (start ∅) ++ [PdfReader blank_pdf];
        session_state := session_state (start ∅) |})
  /\ buttons_of (log (snd (main serving blank_run (start ∅)))) = []
  /\ Forall (fun r => req_method r = GET)
       (requests_of (log (snd (main serving blank_run (start ∅)))))
  /\ session_state (snd (main serving blank_run (start ∅))) = ∅.
Proof.
  assert (Hb : Forall blank [Page (inr []); Page (inr [])])
    by (repeat constructor).
  pose proof (empty_document_not_summarized serving blank_pdf
                [Page (inr []); Page (inr [])] eq_refl Hb)
    as (Hx & _ & _ & Hm).
  split; [apply Hx|]. apply Hm. reflexivity.
Defined.

(** *** Statistics *)

(** The words [split] gives are not empty and hold no whitespace. *)
Lemma split_from_words s :
  forall word,
    Forall (fun c => isspace c = false) word ->
    Forall (fun wd => wd <> [] /\ Forall (fun c => isspace c = false) wd)
      (split_from word s).
Proof.
  induction s as [|c s IH]; intros word Hword; cbn [split_from].
  - destruct word as [|d word]; constructor; [|constructor].
    split; [|apply Forall_reverse; exact Hword].
    intros Hnil. apply (f_equal length) in Hnil.
    rewrite length_reverse in Hnil. discriminate.
  - destruct (isspace c) eqn:Hc.
    + destruct word as [|d word]; [apply IH; constructor|].
      constructor; [|apply IH; constructor].
      split; [|apply Forall_reverse; exact Hword].
      intros Hnil. apply (f_equal length) in Hnil.
      rewrite length_reverse in Hnil. discriminate.
    + apply IH. constructor; assumption.
Qed.

Lemma split_words s :
  Forall (fun wd => wd <> [] /\ Forall (fun c => isspace c = false) wd)
    (split s).
Proof. apply split_from_words. constructor. Qed.

(** A text of whitespace only has no word. *)
Lemma split_whitespace s :
  Forall (fun c => isspace c = true) s -> split s = [].
Proof.
  unfold split. induction 1 as [|c s Hc _ IH]; cbn [split_from];
    [reflexivity|].
  rewrite Hc. exact IH.
Qed.



(** Two words summarized by two words: a compression of 0.0. *)
Example compression_of_greeting :
  compression_ratio (length (split (u "A greeting.")))
    (length (split (u "hello world"))) = 0%float.
Proof. vm_compute. reflexivity. Qed.

(** A text of blanks has no word: no compression is shown. *)
Example blanks_have_no_compression :
  metrics_of
    (log (snd (summary_column
                 (start (<[u "summary" := PyStr (u "A greeting.")]>
                           (<[u "original_text" := PyStr (u "   ")]> ∅))))))
  = [(u "Original Words", [Str (PyInt 0)]);
     (u "Summary Words", [Str (PyInt 2)])].
Proof. vm_compute. reflexivity. Qed.

(** ** Further properties *)

(** *** Extraction of any document *)

Lemma extract_loop_texts ps texts :
  Forall2 yields ps texts ->
  forall text w,
    extract_loop text ps w = (Returns (text ++ concat texts), w).
Proof.
  induction 1 as [|p t ps texts Hp _ IH]; intros text w;
    cbn [extract_loop concat].
  - rewrite app_nil_r. reflexivity.
  - unfold yields in Hp. rewrite Hp, IH, app_assoc. reflexivity.
Qed.

Lemma extract_loop_fault before texts p after e :
  Forall2 yields before texts ->
  extract_text p = inl e ->
  forall text w,
    extract_loop text (before ++ p :: after) w = (Raises e, w).
Proof.
  induction 1 as [|q t before texts Hq _ IH]; intros Hp text w;
    cbn [extract_loop app].
  - rewrite Hp. reflexivity.
  - unfold yields in Hq. rewrite Hq. apply IH. exact Hp.
Qed.

(** The loop changes nothing but its result. *)
Lemma extract_loop_world ps :
  forall text w, snd (extract_loop text ps w) = w.
Proof.
  induction ps as [|p ps IH]; intros text w; cbn [extract_loop];
    [reflexivity|].
  destruct (extract_text p); [reflexivity|apply IH].
Qed.

(** X1. When the file opens and every page yields its text, the result
    is the texts of the pages put end to end in page order; the file
    was opened and nothing else happened. *)
Theorem extract_text_concatenates f ps texts w :
  pages f = inr ps ->
  Forall2 yields ps texts ->
  extract_text_from_pdf f w
  = (Returns (Some (concat texts)),
     {| sent := sent w; log := log w ++ [PdfReader f];
        session_state := session_state w |}).
Proof.
  intros Hp Hy. unfold extract_text_from_pdf, try_except, PdfReader_pages.
  unfold bind at 1 2, emit at 1. rewrite Hp. unfold ret at 1.
  unfold bind. rewrite (extract_loop_texts _ _ Hy). reflexivity.
Qed.

(** Pages of text, a blank page, text again. *)
Lemma extract_text_concatenates_witness :
  extract_text_from_pdf hello_pdf (start ∅)
  = (Returns (Some (concat [u "hello "; u "world"])),
     {| sent := sent (start ∅); log := log (start ∅) ++ [PdfReader hello_pdf];
        session_state := session_state (start ∅) |}).
Proof.
  apply (extract_text_concatenates hello_pdf
           [Page (inr (u "hello ")); Page (inr (u "world"))]
           [u "hello "; u "world"] (start ∅)); [reflexivity|].
  constructor; [reflexivity|]. constructor; [reflexivity|]. constructor.
Defined.

(** X2. Extraction is all or nothing.  When opening the file raises, or
    a page raises after earlier pages yielded text, the result is [None]:
    the text read so far is dropped, and the error shown carries the
    text of the exception. *)
Theorem extract_text_all_or_nothing f e w :
  first_fault f e ->
  extract_text_from_pdf f w
  = (Returns None,
     {| sent := sent w;
        log := log w ++ [PdfReader f; st_error (extraction_error_message e)];
        session_state := session_state w |}).
Proof.
  intros [Hp|(before & texts & p & after & Hp & Hy & He)];
    unfold extract_text_from_pdf, try_except, PdfReader_pages;
    unfold bind at 1 2, emit at 1; rewrite Hp.
  - cbn. rewrite <- app_assoc. reflexivity.
  - unfold ret at 1. unfold bind.
    rewrite (extract_loop_fault _ _ _ after _ Hy He). cbn.
    rewrite <- app_assoc. reflexivity.
Qed.

(** A second page that cannot be read. *)
Lemma extract_text_all_or_nothing_witness :
  extract_text_from_pdf torn_pdf (start ∅)
  = (Returns None,
     {| sent := sent (start ∅);
        log := log (start ∅)
               ++ [PdfReader torn_pdf;
                   st_error (extraction_error_message
                               (Exn (OtherException (u "PdfReadError"))
                                  (u "EOF marker not found")))];
        session_state := session_state (start ∅) |}).
Proof.
  apply (extract_text_all_or_nothing torn_pdf
           (Exn (OtherException (u "PdfReadError"))
              (u "EOF marker not found")) (start ∅)).
  right. exists [Page (inr (u "hello "))], [u "hello "],
    (Page (inl (Exn (OtherException (u "PdfReadError"))
                  (u "EOF marker not found")))),
    [Page (inr (u "world"))].
  split; [reflexivity|]. split; [|reflexivity].
  constructor; [reflexivity|constructor].
Defined.

(** What extraction does to the state, whatever the file. *)
Lemma extract_text_from_pdf_run f w :
  exists r shown,
    extract_text_from_pdf f w
    = (Returns r,
       {| sent := sent w; log := log w ++ PdfReader f :: shown;
          session_state := session_state w |})
    /\ ((shown = [] /\ exists t, r = Some t)
        \/ (exists e, shown = [st_error (extraction_error_message e)]
                      /\ r = None)).
Proof.
  unfold extract_text_from_pdf, try_except, PdfReader_pages.
  unfold bind at 1 2, emit at 1.
  destruct (pages f) as [e|ps].
  - exists None, [st_error (extraction_error_message e)]. cbn.
    rewrite <- app_assoc. split; [reflexivity|]. right. eauto.
  - unfold ret at 1. unfold bind.
    set (w1 := {| sent := sent w; log := log w ++ [PdfReader f];
                  session_state := session_state w |}).
    pose proof (extract_loop_world ps [] w1) as Hw.
    destruct (extract_loop [] ps w1) as [[t|e] w2]; cbn [snd] in Hw;
      subst w2.
    + exists (Some t), []. split; [reflexivity|]. left. eauto.
    + exists None, [st_error (extraction_error_message e)]. cbn.
      rewrite <- app_assoc. split; [reflexivity|]. right. eauto.
Qed.

(** X3. [extract_text_from_pdf] never raises, whatever the file: it
    opens the file, sends nothing, leaves the session state alone, and
    returns [None] exactly when it showed an error. *)
Theorem extract_text_from_pdf_never_raises f w :
  exists r shown,
    extract_text_from_pdf f w
    = (Returns r,
       {| sent := sent w; log := log w ++ PdfReader f :: shown;
          session_state := session_state w |})
    /\ requests_of shown = []
    /\ ((errors_of shown = [] /\ exists t, r = Some t)
        \/ (exists e, errors_of shown = [extraction_error_message e]
                      /\ r = None)).
Proof.
  destruct (extract_text_from_pdf_run f w)
    as (r & shown & Hrun & [[-> Hr]|(e & -> & ->)]);
    eexists _, _; (split; [exact Hrun|]); (split; [reflexivity|]);
    [left|right]; eauto.
Qed.

(** *** The inference call, whatever the reply *)

(** [summarize_text] counts one request and leaves the session state. *)
Lemma summarize_text_world backend base_url text model w :
  sent (snd (summarize_text backend base_url text model w)) = S (sent w)
  /\ session_state (snd (summarize_text backend base_url text model w))
     = session_state w.
Proof.
  run_summarize.
  destruct (max_chars <? length text);
    cbn [fst snd log sent session_state];
    by_cases_on_reply backend; split; reflexivity.
Qed.

(** X4. Whatever the server does, [summarize_text] sends exactly one
    request, the POST to the generate endpoint with a timeout of 120:
    no outcome is retried.  It leaves the session state as it was. *)
Theorem summarize_text_one_request backend base_url text model w :
  sent (snd (summarize_text backend base_url text model w)) = S (sent w)
  /\ session_state (snd (summarize_text backend base_url text model w))
     = session_state w
  /\ exists body,
       requests_of (log (snd (summarize_text backend base_url text model w)))
       = requests_of (log w) ++ [generate_post base_url body].
Proof.
  destruct (summarize_text_world backend base_url text model w) as [Hs Hss].
  destruct (summarize_text_log backend base_url text model w)
    as (tail & Hlog & _ & Hr).
  split; [exact Hs|]. split; [exact Hss|].
  rewrite Hlog, !requests_of_app.
  cbn [requests_of omap list_omap]. fold (requests_of tail). rewrite Hr.
  destruct (max_chars <? length text); eexists; reflexivity.
Qed.





(** *** The model listing, whatever the reply *)




(** X16. Listing the models sends exactly one request, the GET to the
    listing endpoint, and shows nothing, whatever the reply: a listing
    that fails is silent, and one that raises has shown no error. *)
Theorem get_available_models_silent backend base_url w :
  sent (snd (get_available_models backend base_url w)) = S (sent w)
  /\ session_state (snd (get_available_models backend base_url w))
     = session_state w
  /\ requests_of (log (snd (get_available_models backend base_url w)))
     = requests_of (log w) ++ [tags_request base_url]
  /\ errors_of (log (snd (get_available_models backend base_url w)))
     = errors_of (log w).
Proof.
  rewrite get_available_models_world. cbn [sent log session_state].
  rewrite requests_of_app, errors_of_app. cbn. rewrite app_nil_r. auto.
Qed.

(** *** A run of the script *)

Lemma extract_loop_returns ps :
  forall text w t w',
    extract_loop text ps w = (Returns t, w') ->
    exists texts, Forall2 yields ps texts /\ t = text ++ concat texts.
Proof.
  induction ps as [|p ps IH]; intros text w t w'; cbn [extract_loop].
  - intros [= <- _]. exists []. split; [constructor|].
    cbn. rewrite app_nil_r. reflexivity.
  - destruct (extract_text p) as [e|s] eqn:Hp; [discriminate|].
    intros H. apply IH in H as (texts & Hy & ->).
    exists (s :: texts). split; [constructor; assumption|].
    cbn. rewrite app_assoc. reflexivity.
Qed.

(** A text that extraction returned is the pages' texts end to end. *)
Lemma extract_text_from_pdf_returns f w t w' :
  extract_text_from_pdf f w = (Returns (Some t), w') ->
  exists ps texts,
    pages f = inr ps /\ Forall2 yields ps texts /\ t = concat texts.
Proof.
  unfold extract_text_from_pdf, try_except, PdfReader_pages.
  unfold bind at 1 2, emit at 1.
  destruct (pages f) as [e|ps]; [discriminate|].
  unfold ret at 1. unfold bind.
  destruct (extract_loop [] ps _) as [[t0|e] w2] eqn:Hl; [|discriminate].
  intros [= <- _]. apply extract_loop_returns in Hl as (texts & Hy & ->).
  exists ps, texts. auto.
Qed.

Lemma summary_key_ne : u "summary" <> u "original_text".
Proof. intros H. vm_compute in H. discriminate. Qed.

Lemma requests_of_cons e l :
  requests_of (e :: l)
  = match e with
    | Sent r => r :: requests_of l
    | _ => requests_of l
    end.
Proof. destruct e; reflexivity. Qed.

(** What the left column does to the state.  Either it sends nothing
    and stores nothing, or the button was clicked on a file with text:
    then it sent the one inference request, and it stored nothing or a
    truthy summary together with the whole extracted text. *)
Lemma upload_column_effects backend base m inp w :
  exists shown,
    log (snd (upload_column backend base m inp w)) = log w ++ shown
    /\ ((requests_of shown = []
         /\ sent (snd (upload_column backend base m inp w)) = sent w
         /\ session_state (snd (upload_column backend base m inp w))
            = session_state w)
        \/ (generate_clicked inp = true
            /\ (exists body, requests_of shown = [generate_post base body])
            /\ sent (snd (upload_column backend base m inp w)) = S (sent w)
            /\ (session_state (snd (upload_column backend base m inp w))
                = session_state w
                \/ exists f ps texts v,
                     uploaded_file inp = Some f
                     /\ pages f = inr ps
                     /\ Forall2 yields ps texts
                     /\ truthy v = true
                     /\ fst (upload_column backend base m inp w) = Returns tt
                     /\ session_state (snd (upload_column backend base m inp w))
                        = <[u "original_text" := PyStr (concat texts)]>
                            (<[u "summary" := v]> (session_state w))))).
Proof.
  remember (upload_column backend base m inp w) as R eqn:HR.
  unfold upload_column in HR.
  destruct (uploaded_file inp) as [f|] eqn:Hf;
    [|subst R; exists []; rewrite app_nil_r; split; [reflexivity|left; auto]].
  unfold bind at 1, emit at 1 in HR. unfold bind at 1 in HR.
  match type of HR with
  | context [extract_text_from_pdf f ?w0] =>
      destruct (extract_text_from_pdf_run f w0) as (r & shown0 & Hrun & Hsh)
  end.
  cbn [sent log session_state] in Hrun.
  pose proof Hrun as Hret. rewrite Hrun in HR.
  assert (Hnone : requests_of shown0 = [])
    by (destruct Hsh as [[-> _]|(e & -> & _)]; reflexivity).
  destruct r as [[|c t]|].
  1,3: subst R; eexists; cbn [ret snd log sent session_state];
       (split; [rewrite <- !app_assoc; reflexivity|]); left;
       rewrite ?requests_of_app, ?requests_of_cons, Hnone; auto.
  apply extract_text_from_pdf_returns in Hret as (ps & texts & Hp & Hy & Ht).
  unfold bind at 1, emit at 1 in HR. unfold bind at 1, emit at 1 in HR.
  unfold bind at 1, button, bind at 1, emit at 1, ret at 1 in HR.
  cbn [sent log session_state] in HR.
  destruct (generate_clicked inp).
  2: { subst R; eexists; cbn [snd log sent session_state ret].
       split; [rewrite <- !app_assoc; reflexivity|]. left.
       rewrite ?requests_of_app, ?requests_of_cons, Hnone. auto. }
  unfold bind at 1 in HR.
  match type of HR with
  | context [summarize_text backend base (c :: t) m ?w3] =>
      destruct (summarize_text_world backend base (c :: t) m w3) as [Hs Hss];
      destruct (summarize_text_log backend base (c :: t) m w3)
        as (tail & Hlog & _ & Hr);
      destruct (summarize_text backend base (c :: t) m w3) as [[v|e] w4]
  end; cbn [fst snd sent log session_state] in *.
  1: destruct (truthy v) eqn:Hv;
     [unfold session_set, bind in HR|].
  all: subst R; cbn [ret fst snd sent log session_state].
  all: eexists; rewrite Hlog;
       (split; [rewrite <- !app_assoc; reflexivity|]); right;
       (split; [reflexivity|]);
       (split;
        [rewrite ?requests_of_app, ?requests_of_cons, Hnone, Hr;
         destruct (max_chars <? length (c :: t)); eexists; reflexivity|]);
       (split; [exact Hs|]).
  - right. exists f, ps, texts, v. rewrite Hss, Ht. auto 10.
  - left. exact Hss.
  - left. exact Hss.
Qed.

(** What a whole run sends and stores. *)
Lemma main_effects backend inp ss :
  (requests_of (log (snd (main backend inp (start ss))))
   = [tags_request (ollama_host inp)]
   /\ sent (snd (main backend inp (start ss))) = 1
   /\ session_state (snd (main backend inp (start ss))) = ss)
  \/ (requests_of (log (snd (main backend inp (start ss))))
      = [tags_request (ollama_host inp); tags_request (ollama_host inp)]
      /\ sent (snd (main backend inp (start ss))) = 2
      /\ session_state (snd (main backend inp (start ss))) = ss)
  \/ (generate_clicked inp = true
      /\ (exists body,
            requests_of (log (snd (main backend inp (start ss))))
            = [tags_request (ollama_host inp); tags_request (ollama_host inp);
               generate_post (ollama_host inp) body])
      /\ sent (snd (main backend inp (start ss))) = 3
      /\ (session_state (snd (main backend inp (start ss))) = ss
          \/ exists f ps texts v,
               uploaded_file inp = Some f
               /\ pages f = inr ps
               /\ Forall2 yields ps texts
               /\ truthy v = true
               /\ session_state (snd (main backend inp (start ss)))
                  = <[u "original_text" := PyStr (concat texts)]>
                      (<[u "summary" := v]> ss))).
Proof.
  destruct (main_cases backend inp ss)
    as [[_ Hm]|[_ [(e & _ & Hm)|[[_ Hm]|(ms & m & _ & _ & Hm)]]]];
    rewrite Hm.
  - left. auto.
  - right; left. auto.
  - right; left. cbn [snd log sent session_state listed].
    rewrite requests_of_app. auto.
  - set (w0 := chosen (ollama_host inp) ss ms m).
    destruct (upload_column_effects backend (ollama_host inp) m inp w0)
      as (shown & Hlog & Hcase).
    unfold bind.
    destruct (upload_column backend (ollama_host inp) m inp w0)
      as [[[]|e] w1] eqn:Hu; cbn [fst snd] in *.
    + destruct (summary_column_log w1)
        as (shown' & Hl' & _ & Hr' & _ & Hs' & Hss').
      rewrite Hl', Hs', Hss', Hlog, !requests_of_app, Hr', app_nil_r.
      destruct Hcase as [(Hr & Hs & Hss)|(Hc & (body & Hr) & Hs & Hss)];
        rewrite Hr, Hs.
      * right; left. rewrite Hss. auto.
      * right; right. split; [exact Hc|]. split; [exists body; reflexivity|].
        split; [reflexivity|].
        destruct Hss as [Hss|(f & ps & texts & v & Hf & Hp & Hy & Hv & _ & Hss)];
          [left; exact Hss|right].
        exists f, ps, texts, v. auto 10.
    + rewrite Hlog, !requests_of_app.
      destruct Hcase as [(Hr & Hs & Hss)|(Hc & (body & Hr) & Hs & Hss)];
        rewrite Hr, Hs.
      * right; left. rewrite Hss. auto.
      * right; right. split; [exact Hc|]. split; [exists body; reflexivity|].
        split; [reflexivity|].
        destruct Hss as [Hss|(f & ps & texts & v & _ & _ & _ & _ & Hx & _)];
          [left; exact Hss|discriminate].
Qed.

(** X8. A run sends at most three requests, all to the host the user
    typed: the probe, then the listing, then at most one inference
    request, and that one only when the button was clicked. *)
Theorem main_requests backend inp ss :
  sent (snd (main backend inp (start ss)))
  = length (requests_of (log (snd (main backend inp (start ss)))))
  /\ (requests_of (log (snd (main backend inp (start ss))))
      = [tags_request (ollama_host inp)]
      \/ requests_of (log (snd (main backend inp (start ss))))
         = [tags_request (ollama_host inp); tags_request (ollama_host inp)]
      \/ (generate_clicked inp = true
          /\ exists body,
               requests_of (log (snd (main backend inp (start ss))))
               = [tags_request (ollama_host inp);
                  tags_request (ollama_host inp);
                  generate_post (ollama_host inp) body])).
Proof.
  destruct (main_effects backend inp ss)
    as [(Hr & Hs & _)|[(Hr & Hs & _)|(Hc & (body & Hr) & Hs & _)]];
    rewrite Hr, Hs; (split; [reflexivity|]); eauto.
Qed.

(** X9. A run changes the session state in one way only: after a click
    on the button, it stores a truthy summary together with the whole
    text of the uploaded file, the texts of all its pages end to end,
    also when the prompt was built from a cut text.  Every other run
    leaves the session state as it was. *)
Theorem main_session_change backend inp ss :
  session_state (snd (main backend inp (start ss))) = ss
  \/ (generate_clicked inp = true
      /\ exists f ps texts v,
           uploaded_file inp = Some f
           /\ pages f = inr ps
           /\ Forall2 yields ps texts
           /\ truthy v = true
           /\ session_state (snd (main backend inp (start ss)))
              = <[u "original_text" := PyStr (concat texts)]>
                  (<[u "summary" := v]> ss)).
Proof.
  destruct (main_effects backend inp ss)
    as [(_ & _ & Hs)|[(_ & _ & Hs)|(Hc & _ & _ & [Hs|Hs])]]; auto.
Qed.

(** X10. The script keeps the session state well formed: if a stored
    summary is truthy and comes with its text before a run, so it is
    after the run, whatever the server and the user did. *)
Theorem main_keeps_stored backend inp ss :
  stored ss -> stored (session_state (snd (main backend inp (start ss)))).
Proof.
  intros Hst.
  destruct (main_effects backend inp ss)
    as [(_ & _ & Hs)|[(_ & _ & Hs)
        |(_ & _ & _ & [Hs|(f & ps & texts & v & _ & _ & _ & Hv & Hs)])]];
    rewrite Hs; try exact Hst.
  intros v' Hl.
  rewrite lookup_insert_ne, lookup_insert_eq in Hl
    by (apply not_eq_sym, summary_key_ne).
  injection Hl as <-. split; [exact Hv|].
  exists (concat texts). apply lookup_insert_eq.
Qed.

(** From an empty session, a run that summarizes. *)
Lemma main_keeps_stored_witness :
  stored (session_state (snd (main serving summarizing_run (start ∅)))).
Proof.
  apply (main_keeps_stored serving summarizing_run ∅).
  intros v Hl. rewrite lookup_empty in Hl. discriminate.
Defined.

(** X11. From an empty session, after any runs of the script against
    any servers, a stored summary is truthy and comes with its text. *)
Theorem session_always_stored runs : stored (session_after runs ∅).
Proof.
  assert (H : forall ss, stored ss -> stored (session_after runs ss)).
  { induction runs as [|[backend inp] runs IH]; intros ss Hst;
      cbn [session_after]; [exact Hst|].
    apply IH.
    destruct (main_effects backend inp ss)
      as [(_ & _ & Hs)|[(_ & _ & Hs)
          |(_ & _ & _ & [Hs|(f & ps & texts & v & _ & _ & _ & Hv & Hs)])]];
      rewrite Hs; try exact Hst.
    intros v' Hl.
    rewrite lookup_insert_ne, lookup_insert_eq in Hl
      by (apply not_eq_sym, summary_key_ne).
    injection Hl as <-. split; [exact Hv|].
    exists (concat texts). apply lookup_insert_eq. }
  apply H. intros v Hl. rewrite lookup_empty in Hl. discriminate.
Qed.

(** X12. When the probe succeeded, an empty listing ends the run with
    the message that no model is available, and a listing that raises
    ends the run with its exception: in both cases no file is opened
    and the session state stays as it was. *)
Theorem main_listing_stops backend inp ss :
  fst (check_ollama_connection backend (ollama_host inp) (start ss))
  = Returns true ->
  (fst (get_available_models backend (ollama_host inp)
          (probed (ollama_host inp) ss)) = Returns [] ->
   main backend inp (start ss)
   = (Returns tt,
      {| sent := 2;
         log := log (listed (ollama_host inp) ss)
                ++ [st_error no_models_message];
         session_state := ss |}))
  /\ (forall e,
        fst (get_available_models backend (ollama_host inp)
               (probed (ollama_host inp) ss)) = Raises e ->
        main backend inp (start ss) = (Raises e, listed (ollama_host inp) ss)).
Proof.
  intros Hc.
  destruct (main_cases backend inp ss)
    as [[Hc' _]|[_ [(e & Hl & Hm)|[[Hl Hm]|(ms & m & Hne & Hl & Hm)]]]];
    [congruence|..]; rewrite Hl; cbn [fst].
  - split; [discriminate|]. intros e' [= <-]. exact Hm.
  - split; [intros _; exact Hm|discriminate].
  - split; [intros [= ->]; contradiction|discriminate].
Qed.

(** A server that lists no model, and one whose listing has an entry
    without a name. *)
Lemma main_listing_stops_witness :
  main (replying no_models_field) idle_run (start ∅)
  = (Returns tt,
     {| sent := 2;
        log := log (listed (ollama_host idle_run) ∅)
               ++ [st_error no_models_message];
        session_state := ∅ |})
  /\ main (replying nameless_entry) idle_run (start ∅)
     = (Raises (Exn KeyError (u "'name'")),
        listed (ollama_host idle_run) ∅).
Proof.
  split.
  - apply (proj1 (main_listing_stops (replying no_models_field)
                    idle_run ∅ eq_refl)).
    vm_compute. reflexivity.
  - apply (proj2 (main_listing_stops (replying nameless_entry) idle_run ∅
                    eq_refl)).
    vm_compute. reflexivity.
Defined.

(** *** Statistics of any stored summary *)

Lemma split_from_nonempty s :
  forall word,
    word <> [] \/ Exists (fun c => isspace c = false) s ->
    split_from word s <> [].
Proof.
  induction s as [|c s IH]; intros word H; cbn [split_from].
  - destruct H as [H|H]; [|inversion H].
    destruct word; [contradiction|discriminate].
  - destruct (isspace c) eqn:Hc.
    + destruct word as [|d word]; [|discriminate].
      apply IH. destruct H as [H|H]; [contradiction|].
      inversion H as [? ? Hx|? ? Hx]; subst; [congruence|right; exact Hx].
    + apply IH. left. discriminate.
Qed.

(** X13. The compression is left out exactly for a stored text made of
    whitespace only: such a text shows a word count of 0 and two
    metrics, and a text with any other character shows three. *)
Theorem compression_left_out_for_blank_text w text summary :
  session_state w !! u "original_text" = Some (PyStr text) ->
  session_state w !! u "summary" = Some (PyStr summary) ->
  (Forall (fun c => isspace c = true) text ->
   metrics_of (log (snd (summary_column w)))
   = metrics_of (log w)
     ++ [(u "Original Words", [Str (PyInt 0)]);
         (u "Summary Words",
          [Str (PyInt (Z.of_nat (length (split summary))))])])
  /\ (Exists (fun c => isspace c = false) text ->
      exists value,
        metrics_of (log (snd (summary_column w)))
        = metrics_of (log w)
          ++ [(u "Original Words",
               [Str (PyInt (Z.of_nat (length (split text))))]);
              (u "Summary Words",
               [Str (PyInt (Z.of_nat (length (split summary))))]);
              (u "Compression", value)]).
Proof.
  intros Ht Hs.
  assert (Hrun :
    metrics_of (log (snd (summary_column w)))
    = metrics_of (log w)
      ++ [(u "Original Words",
           [Str (PyInt (Z.of_nat (length (split text))))]);
          (u "Summary Words",
           [Str (PyInt (Z.of_nat (length (split summary))))])]
      ++ (if Nat.eqb (length (split text)) 0 then []
          else [(u "Compression",
                 [Fix1 (compression_ratio (length (split summary))
                          (length (split text)));
                  Lit (u "%")])])).
  { unfold summary_column, session_has, session_get, split_len, truediv,
      emit, bind, ret, raise.
    repeat (first [rewrite Hs | rewrite Ht];
            cbn [bool_decide decide_rel is_Some_dec fst snd log sent
                   session_state]).
    destruct (length (split text)) as [|n] eqn:Hn;
      cbn [Nat.ltb Nat.leb Nat.eqb fst snd log sent session_state];
      repeat (rewrite Hs; cbn [fst snd log sent session_state]);
      cbn [log]; rewrite !metrics_of_app; cbn; rewrite ?app_nil_r;
      rewrite <- ?app_assoc; reflexivity. }
  rewrite Hrun. split.
  - intros Hblank. rewrite (split_whitespace _ Hblank). reflexivity.
  - intros Hchar.
    destruct (length (split text)) as [|n] eqn:Hn.
    + apply length_zero_iff_nil in Hn.
      exfalso. apply (split_from_nonempty text []); [right; exact Hchar|].
      exact Hn.
    + eexists. reflexivity.
Qed.

(** A text of three blanks, and the text [hello world]. *)
Lemma compression_left_out_for_blank_text_witness :
  metrics_of (log (snd (summary_column blank_session)))
  = metrics_of (log blank_session)
    ++ [(u "Original Words", [Str (PyInt 0)]);
        (u "Summary Words",
         [Str (PyInt (Z.of_nat (length (split (u "A greeting.")))))])]
  /\ exists value,
       metrics_of (log (snd (summary_column greeting_session)))
       = metrics_of (log greeting_session)
         ++ [(u "Original Words",
              [Str (PyInt (Z.of_nat (length (split (u "hello world")))))]);
             (u "Summary Words",
              [Str (PyInt (Z.of_nat (length (split (u "A greeting.")))))]);
             (u "Compression", value)].
Proof.
  split.
  - apply (proj1 (compression_left_out_for_blank_text blank_session
                    (u "   ") (u "A greeting.") eq_refl eq_refl)).
    repeat constructor.
  - apply (proj2 (compression_left_out_for_blank_text greeting_session
                    (u "hello world") (u "A greeting.") eq_refl eq_refl)).
    constructor. reflexivity.
Defined.

(** X14. A stored summary that is not a string makes the right column
    raise [AttributeError] when it counts the words, after the word
    count of the text was shown.  The script stores any truthy value
    the server sent as the ["response"] field, so such a summary can be
    stored. *)
Theorem summary_column_non_string w v text :
  session_state w !! u "summary" = Some v ->
  (forall s, v <> PyStr s) ->
  session_state w !! u "original_text" = Some (PyStr text) ->
  fst (summary_column w)
  = Raises (Exn AttributeError
              (u "'" ++ type_name v ++ u "' object has no attribute 'split'"))
  /\ metrics_of (log (snd (summary_column w)))
     = metrics_of (log w)
       ++ [(u "Original Words",
            [Str (PyInt (Z.of_nat (length (split text))))])].
Proof.
  intros Hs Hv Ht.
  unfold summary_column, session_has, session_get, split_len, truediv,
    emit, bind, ret, raise.
  repeat (first [rewrite Hs | rewrite Ht];
          cbn [bool_decide decide_rel is_Some_dec fst snd log sent
                 session_state]).
  destruct v as [| | | |s| |];
    try (exfalso; apply (Hv s); reflexivity);
    cbn [fst snd log]; (split; [reflexivity|]);
    rewrite !metrics_of_app; cbn; rewrite ?app_nil_r; reflexivity.
Qed.

(** A summary that is the number 42. *)
Lemma summary_column_non_string_witness :
  fst (summary_column number_session)
  = Raises (Exn AttributeError
              (u "'" ++ type_name (PyInt 42)
               ++ u "' object has no attribute 'split'"))
  /\ metrics_of (log (snd (summary_column number_session)))
     = metrics_of (log number_session)
       ++ [(u "Original Words",
            [Str (PyInt (Z.of_nat (length (split (u "hello world")))))])].
Proof.
  apply (summary_column_non_string number_session (PyInt 42)
           (u "hello world")); [reflexivity|discriminate|reflexivity].
Defined.

(** *** A run that summarizes *)





